(** * Gripper end-effectors of pyrobolearn: finger grouping and accessors

    Shallow embedding of [pyrobolearn/robots/gripper.py]: the [Gripper]
    class (a [Robot] with a list of fingers), its two read accessors and
    the three capability variants [ParallelGripper], [AngularGripper] and
    [VacuumGripper].

    Python objects are mutable and methods may raise, so every method is a
    computation in a small state-and-exception monad over the instance
    [self].  The [Robot] base class and the simulator live outside this
    file of the repository; they are section variables. *)

From Stdlib Require Import ZArith Lia Floats.PrimFloat.
From stdpp Require Import base option list strings.

Local Open Scope Z_scope.

(** ** Python values that cross this module *)

(** Numbers found in a pose: the defaults mix [int] and [float] literals
    ([(0, 0, 1.)]), so the two are kept apart. *)
Inductive number : Type :=
  | PyInt (z : Z)
  | PyFloat (x : float).

Definition position : Type := number * number * number.
Definition orientation : Type := number * number * number * number.

(** A finger is a list of link/joint ids; [fingers] is a list of fingers. *)
Definition finger : Type := list Z.

(** The [finger_id] argument of [get_finger]: [None] (also the default) or
    an integer. *)
Inductive finger_id : Type :=
  | PyNone
  | PyIndex (i : Z).

(** What [get_finger] hands back: one finger ([self.fingers[finger_id]]) or
    the whole list ([self.fingers]). *)
Inductive finger_result : Type :=
  | OneFinger (f : finger)
  | AllFingers (fs : list finger).

Inductive exception : Type :=
  | IndexError
  | AttributeError
  | TypeError
  | CollaboratorError (msg : string).

(** The four classes defined in the file. *)
Inductive class : Type :=
  | Gripper
  | ParallelGripper
  | AngularGripper
  | VacuumGripper.

(** ** Instances

    [robot] is whatever the [Robot] base class keeps on the instance;
    [fingers] is the attribute [self.fingers], absent ([None]) until it is
    first assigned. *)
Record object (R : Type) : Type := Object {
  class_of : class;
  robot : R;
  fingers : option (list finger)
}.
Arguments Object {R} _ _ _.
Arguments class_of {R} _.
Arguments robot {R} _.
Arguments fingers {R} _.

(** ** The monad of methods: state passing over [self], with exceptions *)

Inductive outcome (A : Type) : Type :=
  | Return (a : A)
  | Raise (e : exception).
Arguments Return {A} a.
Arguments Raise {A} e.

Definition M (R A : Type) : Type := object R -> outcome A * object R.

Definition ret {R A} (a : A) : M R A := fun self => (Return a, self).

Definition raise {R A} (e : exception) : M R A := fun self => (Raise e, self).

Definition bind {R A B} (m : M R A) (k : A -> M R B) : M R B :=
  fun self =>
    match m self with
    | (Return a, self') => k a self'
    | (Raise e, self') => (Raise e, self')
    end.

Definition lift {R A} (o : outcome A) : M R A := fun self => (o, self).

Declare Scope py_scope.
Delimit Scope py_scope with py.
Notation "x <- m ;; k" := (bind m (fun x => k))
  (at level 100, m at next level, right associativity) : py_scope.
Notation "m ;; k" := (bind m (fun _ => k))
  (at level 100, right associativity) : py_scope.
Local Open Scope py_scope.

Definition result {R A} (m : M R A) (self : object R) : outcome A := fst (m self).
Definition exec {R A} (m : M R A) (self : object R) : object R := snd (m self).

(** Reading [self.fingers]: an [AttributeError] while the attribute is
    absent. *)
Definition getattr_fingers {R} : M R (list finger) :=
  fun self =>
    match fingers self with
    | Some fs => (Return fs, self)
    | None => (Raise AttributeError, self)
    end.

(** The assignment [self.fingers = fs]. *)
Definition setattr_fingers {R} (fs : list finger) : M R unit :=
  fun self => (Return tt, Object (class_of self) (robot self) (Some fs)).

(** ** Python primitives used by the accessors *)

(** Truth value of the argument in [if finger_id:]. [None] and [0] are
    false, every other integer is true. *)
Definition truthy (a : finger_id) : bool :=
  match a with
  | PyNone => false
  | PyIndex i => negb (i =? 0)
  end.

(** [l[i]] on a list: a negative index counts from the end, anything
    outside [-len(l) <= i < len(l)] raises [IndexError]. *)
Definition list_getitem {A} (l : list A) (i : Z) : outcome A :=
  let n := Z.of_nat (length l) in
  let j := if i <? 0 then i + n else i in
  if (j <? 0) || (n <=? j) then Raise IndexError
  else match l !! Z.to_nat j with
       | Some x => Return x
       | None => Raise IndexError
       end.

(** [self.fingers[finger_id]]: the attribute is read first, then
    subscripted; a list cannot be subscripted with [None]. *)
Definition subscript_fingers {R} (a : finger_id) : M R finger_result :=
  match a with
  | PyIndex i =>
      fs <- getattr_fingers ;;
      f <- lift (list_getitem fs i) ;;
      ret (OneFinger f)
  | PyNone =>
      fs <- getattr_fingers ;;
      raise TypeError
  end.

(** ** Default values of the keyword arguments *)

Definition default_position : position := (PyInt 0, PyInt 0, PyFloat 1).
Definition default_orientation : orientation := (PyInt 0, PyInt 0, PyInt 0, PyInt 1).
Definition default_fixed_base : bool := false.
Definition default_scale : number := PyFloat 1.

(** ** The classes *)

Section Classes.
Variable Simulator : Type.
Variable RobotState : Type.

Local Abbreviation Method := (M RobotState).

(** [Robot.__init__(self, simulator, urdf, position, orientation,
    fixed_base, scale)]: the collaborator.  It may change the instance
    and it may raise. *)
Variable Robot_init :
  Simulator -> string -> position -> orientation -> bool -> number -> Method unit.

(** [Gripper.__init__]: an omitted keyword argument is [None] here and
    takes its default. *)
Definition Gripper_init (simulator : Simulator) (urdf : string)
    (position : option position) (orientation : option orientation)
    (fixed_base : option bool) (scale : option number) : Method unit :=
  let position := default default_position position in
  let orientation := default default_orientation orientation in
  let fixed_base := default default_fixed_base fixed_base in
  let scale := default default_scale scale in
  Robot_init simulator urdf position orientation fixed_base scale ;;
  setattr_fingers [].

(** The property [num_fingers]: [len(self.fingers)]. *)
Definition num_fingers : Method nat :=
  fs <- getattr_fingers ;;
  ret (length fs).

(** [get_finger(self, finger_id=None)]. *)
Definition get_finger (finger_id : finger_id) : Method finger_result :=
  if truthy finger_id then
    subscript_fingers finger_id
  else
    fs <- getattr_fingers ;;
    ret (AllFingers fs).

(** The three variants only define [__init__], which resolves its own
    defaults and passes all six arguments on to [Gripper.__init__]. *)
Definition ParallelGripper_init (simulator : Simulator) (urdf : string)
    (position : option position) (orientation : option orientation)
    (fixed_base : option bool) (scale : option number) : Method unit :=
  let position := default default_position position in
  let orientation := default default_orientation orientation in
  let fixed_base := default default_fixed_base fixed_base in
  let scale := default default_scale scale in
  Gripper_init simulator urdf (Some position) (Some orientation)
               (Some fixed_base) (Some scale).

Definition AngularGripper_init (simulator : Simulator) (urdf : string)
    (position : option position) (orientation : option orientation)
    (fixed_base : option bool) (scale : option number) : Method unit :=
  let position := default default_position position in
  let orientation := default default_orientation orientation in
  let fixed_base := default default_fixed_base fixed_base in
  let scale := default default_scale scale in
  Gripper_init simulator urdf (Some position) (Some orientation)
               (Some fixed_base) (Some scale).

Definition VacuumGripper_init (simulator : Simulator) (urdf : string)
    (position : option position) (orientation : option orientation)
    (fixed_base : option bool) (scale : option number) : Method unit :=
  let position := default default_position position in
  let orientation := default default_orientation orientation in
  let fixed_base := default default_fixed_base fixed_base in
  let scale := default default_scale scale in
  Gripper_init simulator urdf (Some position) (Some orientation)
               (Some fixed_base) (Some scale).

(** *** Method lookup

    The classes of this file in method resolution order ([Robot] and
    [object], which follow [Gripper], are outside). *)
Definition mro (c : class) : list class :=
  match c with
  | Gripper => [Gripper]
  | _ => [c; Gripper]
  end.

(** What each class body defines. *)
Definition own_init (c : class) :
    option (Simulator -> string -> option position -> option orientation ->
            option bool -> option number -> Method unit) :=
  match c with
  | Gripper => Some Gripper_init
  | ParallelGripper => Some ParallelGripper_init
  | AngularGripper => Some AngularGripper_init
  | VacuumGripper => Some VacuumGripper_init
  end.

Definition own_num_fingers (c : class) : option (Method nat) :=
  match c with
  | Gripper => Some num_fingers
  | _ => None
  end.

Definition own_get_finger (c : class) : option (finger_id -> Method finger_result) :=
  match c with
  | Gripper => Some get_finger
  | _ => None
  end.

(** First class along the resolution order that defines the name. *)
Fixpoint lookup_method {T} (own : class -> option T) (l : list class) : option T :=
  match l with
  | [] => None
  | c :: l' =>
      match own c with
      | Some m => Some m
      | None => lookup_method own l'
      end
  end.

(** [cls.__init__(self, ...)] as run when an instance of [c] is built. *)
Definition construct (c : class) (simulator : Simulator) (urdf : string)
    (position : option position) (orientation : option orientation)
    (fixed_base : option bool) (scale : option number) : Method unit :=
  match lookup_method own_init (mro c) with
  | Some init => init simulator urdf position orientation fixed_base scale
  | None => raise AttributeError
  end.

(** [self.num_fingers] and [self.get_finger(finger_id)] on an instance
    of any of the four classes. *)
Definition call_num_fingers : Method nat :=
  fun self =>
    match lookup_method own_num_fingers (mro (class_of self)) with
    | Some m => m self
    | None => (Raise AttributeError, self)
    end.

Definition call_get_finger (finger_id : finger_id) : Method finger_result :=
  fun self =>
    match lookup_method own_get_finger (mro (class_of self)) with
    | Some m => m finger_id self
    | None => (Raise AttributeError, self)
    end.

(** A run of assignments [self.fingers = fs], in order. *)
Fixpoint assign_all (fss : list (list finger)) : Method unit :=
  match fss with
  | [] => ret tt
  | fs :: rest => setattr_fingers fs ;; assign_all rest
  end.

End Classes.

Arguments Gripper_init {Simulator RobotState} Robot_init.
Arguments ParallelGripper_init {Simulator RobotState} Robot_init.
Arguments AngularGripper_init {Simulator RobotState} Robot_init.
Arguments VacuumGripper_init {Simulator RobotState} Robot_init.
Arguments num_fingers {RobotState}.
Arguments get_finger {RobotState}.
Arguments own_init {Simulator RobotState} Robot_init.
Arguments own_num_fingers {RobotState}.
Arguments own_get_finger {RobotState}.
Arguments construct {Simulator RobotState} Robot_init.
Arguments call_num_fingers {RobotState}.
Arguments call_get_finger {RobotState}.
Arguments assign_all {RobotState}.

(** ** A concrete collaborator, for running the classes on examples

    This [Robot.__init__] keeps the arguments it was given on the instance
    and refuses an empty URDF path. *)
Module Demo.

Definition loaded : Type := option (string * position * orientation * bool * number).

Definition Robot_init (simulator : unit) (urdf : string) (p : position)
    (o : orientation) (fixed_base : bool) (scale : number) : M loaded unit :=
  fun self =>
    if String.eqb urdf "" then (Raise (CollaboratorError "cannot load URDF"), self)
    else (Return tt,
          Object (class_of self) (Some (urdf, p, o, fixed_base, scale)) (fingers self)).

(** An instance on which no [__init__] has run yet. *)
Definition blank (c : class) : object loaded := Object c None None.

(** The scenario [fingers = [[10, 11], [20, 21]]] on a parallel gripper. *)
Definition two_fingers : object loaded :=
  Object ParallelGripper None (Some [[10; 11]; [20; 21]]).

(** A gripper without fingers. *)
Definition no_fingers : object loaded := Object VacuumGripper None (Some []).

End Demo.

(** * Properties *)

(** ** Subscripting a Python list *)

Lemma list_getitem_nonneg {A} (l : list A) (i : Z) (x : A) :
  0 <= i -> l !! Z.to_nat i = Some x -> list_getitem l i = Return x.
Proof.
  intros Hi Hx. unfold list_getitem.
  assert (Hlt : (Z.to_nat i < length l)%nat) by (eapply lookup_lt_Some; eassumption).
  destruct (Z.ltb_spec i 0) as [Hneg | _]; [lia |].
  destruct (Z.ltb_spec i 0) as [Hneg | _]; [lia |].
  destruct (Z.leb_spec (Z.of_nat (length l)) i) as [Hge | _]; [lia |].
  simpl. now rewrite Hx.
Qed.

Lemma list_getitem_negative {A} (l : list A) (i : Z) (x : A) :
  i < 0 -> 0 <= i + Z.of_nat (length l) ->
  l !! Z.to_nat (i + Z.of_nat (length l)) = Some x ->
  list_getitem l i = Return x.
Proof.
  intros Hneg Hlow Hx. unfold list_getitem.
  assert (Hlt : (Z.to_nat (i + Z.of_nat (length l)) < length l)%nat)
    by (eapply lookup_lt_Some; eassumption).
  destruct (Z.ltb_spec i 0) as [_ | Hge]; [| lia].
  destruct (Z.ltb_spec (i + Z.of_nat (length l)) 0) as [Hlt0 | _]; [lia |].
  destruct (Z.leb_spec (Z.of_nat (length l)) (i + Z.of_nat (length l))) as [Hge | _]; [lia |].
  simpl. now rewrite Hx.
Qed.

Lemma list_getitem_out_of_range {A} (l : list A) (i : Z) :
  i < - Z.of_nat (length l) \/ Z.of_nat (length l) <= i ->
  list_getitem l i = Raise IndexError.
Proof.
  intros Hout. unfold list_getitem.
  destruct (Z.ltb_spec i 0) as [Hneg | Hpos].
  - destruct (Z.ltb_spec (i + Z.of_nat (length l)) 0) as [_ | Hge]; [reflexivity | lia].
  - destruct (Z.ltb_spec i 0) as [Hneg | _]; [lia |].
    destruct (Z.leb_spec (Z.of_nat (length l)) i) as [_ | Hlt]; [reflexivity | lia].
Qed.


Section Properties.
Context {Simulator RobotState : Type}.
Variable Robot_init :
  Simulator -> string -> position -> orientation -> bool -> number -> M RobotState unit.

Implicit Types (self : object RobotState) (fs : list finger) (c : class).

(** ** The accessors, case by case *)

Lemma get_finger_none self :
  get_finger PyNone self = (fs <- getattr_fingers ;; ret (AllFingers fs)) self.
Proof. reflexivity. Qed.

Lemma get_finger_nonzero self i :
  i <> 0 ->
  get_finger (PyIndex i) self =
  (fs <- getattr_fingers ;; f <- lift (list_getitem fs i) ;; ret (OneFinger f)) self.
Proof.
  intros Hi. unfold get_finger, truthy.
  destruct (Z.eqb_spec i 0) as [-> | _]; [contradiction | reflexivity].
Qed.

Lemma get_finger_assigned_nonzero self fs i :
  fingers self = Some fs -> i <> 0 ->
  get_finger (PyIndex i) self =
  (match list_getitem fs i with
   | Return f => Return (OneFinger f)
   | Raise e => Raise e
   end, self).
Proof.
  intros Hfs Hi. rewrite get_finger_nonzero by assumption.
  unfold bind, getattr_fingers, lift, ret. rewrite Hfs.
  now destruct (list_getitem fs i).
Qed.

(** X1. For [1 <= i < num_fingers] the accessor returns the finger at
    position [i] and leaves the instance as it was. *)
Lemma get_finger_positive_index self fs i :
  fingers self = Some fs -> 1 <= i < Z.of_nat (length fs) ->
  exists f, fs !! Z.to_nat i = Some f /\
            get_finger (PyIndex i) self = (Return (OneFinger f), self).
Proof.
  intros Hfs Hi.
  destruct (lookup_lt_is_Some_2 fs (Z.to_nat i)) as [f Hf]; [lia |].
  exists f. split; [assumption |].
  rewrite (get_finger_assigned_nonzero self fs i) by (assumption || lia).
  now rewrite (list_getitem_nonneg fs i f) by (assumption || lia).
Qed.

(** X2. Every non-zero index outside [-num_fingers <= i < num_fingers]
    raises [IndexError] and leaves the instance as it was. *)
Lemma get_finger_nonzero_out_of_range self fs i :
  fingers self = Some fs -> i <> 0 ->
  i < - Z.of_nat (length fs) \/ Z.of_nat (length fs) <= i ->
  get_finger (PyIndex i) self = (Raise IndexError, self).
Proof.
  intros Hfs Hi Hout.
  rewrite (get_finger_assigned_nonzero self fs i) by assumption.
  now rewrite list_getitem_out_of_range.
Qed.

Lemma num_fingers_assigned self fs :
  fingers self = Some fs -> num_fingers self = (Return (length fs), self).
Proof.
  intros Hfs. unfold num_fingers, bind, getattr_fingers, ret. now rewrite Hfs.
Qed.

Lemma num_fingers_unassigned self :
  fingers self = None -> num_fingers self = (Raise AttributeError, self).
Proof.
  intros Hfs. unfold num_fingers, bind, getattr_fingers. now rewrite Hfs.
Qed.

Lemma lookup_method_num_fingers c :
  lookup_method own_num_fingers (mro c) = Some (@num_fingers RobotState).
Proof. now destruct c. Qed.

Lemma lookup_method_get_finger c :
  lookup_method own_get_finger (mro c) = Some (@get_finger RobotState).
Proof. now destruct c. Qed.

Lemma call_num_fingers_eq self : call_num_fingers self = num_fingers self.
Proof. unfold call_num_fingers. now rewrite lookup_method_num_fingers. Qed.

Lemma call_get_finger_eq self a : call_get_finger a self = get_finger a self.
Proof. unfold call_get_finger. now rewrite lookup_method_get_finger. Qed.

(** The accessors never write to the instance. *)
Lemma getattr_fingers_exec self : exec getattr_fingers self = self.
Proof. unfold exec, getattr_fingers. now destruct (fingers self). Qed.

Lemma num_fingers_exec self : exec num_fingers self = self.
Proof.
  unfold exec, num_fingers, bind, getattr_fingers, ret. now destruct (fingers self).
Qed.

Lemma get_finger_exec self a : exec (get_finger a) self = self.
Proof.
  unfold exec, get_finger, subscript_fingers, bind, getattr_fingers, lift, ret, raise.
  destruct a as [| i]; simpl.
  - now destruct (fingers self).
  - destruct (negb (i =? 0)), (fingers self) as [fs |]; try reflexivity.
    now destruct (list_getitem fs i).
Qed.

(** Every constructor comes down to [Gripper.__init__] on the same
    arguments. *)
Lemma construct_eq c sim urdf p o f s :
  construct Robot_init c sim urdf p o f s = Gripper_init Robot_init sim urdf p o f s.
Proof. destruct c; reflexivity. Qed.

(** [Gripper.__init__] is [Robot.__init__] followed, on success only, by
    [self.fingers = []]. *)
Lemma Gripper_init_unfold sim urdf p o f s self :
  Gripper_init Robot_init sim urdf p o f s self =
  match Robot_init sim urdf (default default_position p) (default default_orientation o)
                   (default default_fixed_base f) (default default_scale s) self with
  | (Return _, self') => (Return tt, Object (class_of self') (robot self') (Some []))
  | (Raise e, self') => (Raise e, self')
  end.
Proof. reflexivity. Qed.

Lemma assign_all_app fss fs self :
  exec (assign_all (fss ++ [fs])) self =
  Object (class_of (exec (assign_all fss) self)) (robot (exec (assign_all fss) self)) (Some fs).
Proof.
  revert self. induction fss as [| fs0 fss IH]; intros self; [reflexivity |].
  change (exec (assign_all ((fs0 :: fss) ++ [fs])) self)
    with (exec (assign_all (fss ++ [fs])) (Object (class_of self) (robot self) (Some fs0))).
  now rewrite IH.
Qed.

(** ** The claims *)

(** C3. In the code as written, [get_finger(0)] is the same call as
    [get_finger()]: on every instance the two give the same outcome, and
    once [fingers] holds a list that outcome is the whole list, not the
    finger at position 0. *)
Theorem get_finger_zero_is_no_index self :
  get_finger (PyIndex 0) self = get_finger PyNone self /\
  forall fs, fingers self = Some fs ->
             get_finger (PyIndex 0) self = (Return (AllFingers fs), self).
Proof.
  split; [reflexivity |].
  intros fs Hfs. unfold get_finger, bind, getattr_fingers, ret. simpl. now rewrite Hfs.
Qed.

(** C4. After a construction of any of the four classes that succeeds,
    [num_fingers] is 0 and [get_finger()] returns the empty list. *)
Theorem construct_starts_empty c sim urdf p o f s self self' :
  construct Robot_init c sim urdf p o f s self = (Return tt, self') ->
  fingers self' = Some [] /\
  call_num_fingers self' = (Return 0%nat, self') /\
  call_get_finger PyNone self' = (Return (AllFingers []), self').
Proof.
  rewrite construct_eq, Gripper_init_unfold.
  destruct (Robot_init _ _ _ _ _ _ self) as [[[] | e] self1]; [| discriminate].
  intros [= <-]. rewrite call_num_fingers_eq, call_get_finger_eq. now repeat split.
Qed.

(** C5. After any run of assignments to [fingers], [num_fingers] is the
    length of the list that [fingers] holds at that moment (the last one
    assigned); an instance carries no count of its own. *)
Theorem num_fingers_tracks_fingers self fss :
  num_fingers (exec (assign_all fss) self) =
    (match fingers (exec (assign_all fss) self) with
     | Some fs => Return (length fs)
     | None => Raise AttributeError
     end, exec (assign_all fss) self) /\
  forall fs,
    fingers (exec (assign_all (fss ++ [fs])) self) = Some fs /\
    num_fingers (exec (assign_all (fss ++ [fs])) self) =
      (Return (length fs), exec (assign_all (fss ++ [fs])) self).
Proof.
  split.
  - destruct (fingers (exec (assign_all fss) self)) as [fs |] eqn:Hfs.
    + now apply num_fingers_assigned.
    + now apply num_fingers_unassigned.
  - intros fs. rewrite assign_all_app. split; [reflexivity |].
    now apply num_fingers_assigned.
Qed.

(** C6. [num_fingers] and [get_finger] (with or without an index, and
    also when they raise) leave the instance as it was, so a repeated call
    gives the same outcome. *)
Theorem queries_are_pure self a :
  exec num_fingers self = self /\
  exec (get_finger a) self = self /\
  num_fingers (exec num_fingers self) = num_fingers self /\
  get_finger a (exec (get_finger a) self) = get_finger a self /\
  num_fingers (exec (get_finger a) self) = num_fingers self /\
  get_finger a (exec num_fingers self) = get_finger a self.
Proof.
  rewrite num_fingers_exec, get_finger_exec. now repeat split.
Qed.

(** C7. Each variant's constructor is [Gripper.__init__] on the same
    arguments, and on an instance of any class [num_fingers] and
    [get_finger] are the methods of [Gripper]: tagging an instance with
    another class changes neither their result nor the instance. *)
Theorem variants_substitutable c :
  (forall sim urdf p o f s self,
     construct Robot_init c sim urdf p o f s self =
     construct Robot_init Gripper sim urdf p o f s self) /\
  (forall sim urdf p o f s,
     ParallelGripper_init Robot_init sim urdf p o f s = Gripper_init Robot_init sim urdf p o f s /\
     AngularGripper_init Robot_init sim urdf p o f s = Gripper_init Robot_init sim urdf p o f s /\
     VacuumGripper_init Robot_init sim urdf p o f s = Gripper_init Robot_init sim urdf p o f s) /\
  (forall self,
     call_num_fingers (Object c (robot self) (fingers self)) =
     (result num_fingers (Object Gripper (robot self) (fingers self)),
      Object c (robot self) (fingers self))) /\
  (forall self a,
     call_get_finger a (Object c (robot self) (fingers self)) =
     (result (get_finger a) (Object Gripper (robot self) (fingers self)),
      Object c (robot self) (fingers self))).
Proof.
  repeat split.
  - intros. now rewrite !construct_eq.
  - intros self. rewrite call_num_fingers_eq.
    unfold result, num_fingers, bind, getattr_fingers, ret. simpl.
    now destruct (fingers self).
  - intros self a. rewrite call_get_finger_eq.
    unfold result, get_finger, subscript_fingers, bind, getattr_fingers, lift, ret, raise.
    destruct a as [| i]; simpl.
    + now destruct (fingers self).
    + destruct (negb (i =? 0)), (fingers self) as [fs |]; try reflexivity.
      cbn. now destruct (list_getitem fs i).
Qed.

(** C8. A constructor of any of the four classes raises exactly when
    [Robot.__init__] (run on the resolved arguments) raises: it then
    raises the same exception and leaves the instance as
    [Robot.__init__] left it, [fingers] included; it adds no exception of
    its own. *)
Theorem robot_failure_propagates c sim urdf p o f s self e self' :
  Robot_init sim urdf (default default_position p) (default default_orientation o)
             (default default_fixed_base f) (default default_scale s) self
    = (Raise e, self') <->
  construct Robot_init c sim urdf p o f s self = (Raise e, self').
Proof.
  rewrite construct_eq, Gripper_init_unfold.
  destruct (Robot_init _ _ _ _ _ _ self) as [[[] | e1] self1].
  - split; discriminate.
  - reflexivity.
Qed.

(** C9. With [n >= 1] fingers and [1 <= k <= n], [get_finger(-k)] does
    not raise: it returns the finger at position [n - k]. *)
Theorem get_finger_negative_wraps self fs k :
  fingers self = Some fs -> 1 <= k <= Z.of_nat (length fs) ->
  exists f, fs !! (length fs - Z.to_nat k)%nat = Some f /\
            get_finger (PyIndex (- k)) self = (Return (OneFinger f), self).
Proof.
  intros Hfs Hk.
  destruct (lookup_lt_is_Some_2 fs (length fs - Z.to_nat k)) as [f Hf]; [lia |].
  exists f. split; [assumption |].
  rewrite (get_finger_assigned_nonzero self fs (- k)) by (assumption || lia).
  rewrite (list_getitem_negative fs (- k) f); [reflexivity | lia | lia |].
  replace (Z.to_nat (- k + Z.of_nat (length fs))) with (length fs - Z.to_nat k)%nat by lia.
  assumption.
Qed.

(** C10. For each of the four classes [position], [orientation],
    [fixed_base] and [scale] may be left out, and leaving one out is the
    same as passing [(0, 0, 1.)], [(0, 0, 0, 1)], [False] and [1.]
    respectively. *)
Theorem omitted_arguments_take_defaults c sim urdf :
  construct Robot_init c sim urdf None None None None =
  construct Robot_init c sim urdf
            (Some (PyInt 0, PyInt 0, PyFloat 1))
            (Some (PyInt 0, PyInt 0, PyInt 0, PyInt 1))
            (Some false) (Some (PyFloat 1)) /\
  forall p o f s,
    construct Robot_init c sim urdf p o f s =
    construct Robot_init c sim urdf
              (Some (default (PyInt 0, PyInt 0, PyFloat 1) p))
              (Some (default (PyInt 0, PyInt 0, PyInt 0, PyInt 1) o))
              (Some (default false f)) (Some (default (PyFloat 1) s)).
Proof.
  split; [now destruct c |].
  intros p o f s. now destruct c.
Qed.

End Properties.

(** ** The claims on concrete instances *)

(** C1. On the scenario's gripper with [fingers = [[10, 11], [20, 21]]],
    index 0 is in range and position 0 holds [[10, 11]], yet
    [get_finger(0)] returns the whole list of fingers. *)
Theorem get_finger_zero_returns_all_fingers :
  fingers Demo.two_fingers = Some [[10; 11]; [20; 21]] /\
  num_fingers Demo.two_fingers = (Return 2%nat, Demo.two_fingers) /\
  [[10; 11]; [20; 21]] !! 0%nat = Some [10; 11] /\
  get_finger (PyIndex 0) Demo.two_fingers =
    (Return (AllFingers [[10; 11]; [20; 21]]), Demo.two_fingers) /\
  get_finger (PyIndex 0) Demo.two_fingers <>
    (Return (OneFinger [10; 11]), Demo.two_fingers).
Proof. repeat split. discriminate. Qed.

(** C2. On a gripper without fingers, index 0 is not below
    [num_fingers], yet [get_finger(0)] raises nothing and returns the
    empty list. *)
Theorem get_finger_zero_no_fingers_returns :
  num_fingers Demo.no_fingers = (Return 0%nat, Demo.no_fingers) /\
  get_finger (PyIndex 0) Demo.no_fingers = (Return (AllFingers []), Demo.no_fingers) /\
  get_finger (PyIndex 0) Demo.no_fingers <> (Raise IndexError, Demo.no_fingers).
Proof. repeat split. discriminate. Qed.

(** ** Runs of the theorems on concrete instances *)

Lemma get_finger_zero_is_no_index_witness :
  get_finger (PyIndex 0) Demo.two_fingers = get_finger PyNone Demo.two_fingers /\
  get_finger (PyIndex 0) Demo.two_fingers =
    (Return (AllFingers [[10; 11]; [20; 21]]), Demo.two_fingers).
Proof.
  destruct (get_finger_zero_is_no_index Demo.two_fingers) as [Hsame Hall].
  split; [exact Hsame |].
  apply Hall. reflexivity.
Defined.

Lemma construct_starts_empty_witness :
  construct Demo.Robot_init ParallelGripper tt "gripper.urdf" None None None None
            (Demo.blank ParallelGripper)
  = (Return tt,
     Object ParallelGripper
            (Some ("gripper.urdf", default_position, default_orientation, false, default_scale))
            (Some [])) /\
  call_num_fingers
    (Object ParallelGripper
            (Some ("gripper.urdf", default_position, default_orientation, false, default_scale))
            (Some []))
  = (Return 0%nat,
     Object ParallelGripper
            (Some ("gripper.urdf", default_position, default_orientation, false, default_scale))
            (Some [])).
Proof.
  split; [reflexivity |].
  apply (construct_starts_empty Demo.Robot_init ParallelGripper tt "gripper.urdf"
           None None None None (Demo.blank ParallelGripper)).
  reflexivity.
Defined.

Lemma robot_failure_propagates_witness :
  Demo.Robot_init tt "" default_position default_orientation false default_scale
                  (Demo.blank VacuumGripper)
  = (Raise (CollaboratorError "cannot load URDF"), Demo.blank VacuumGripper) /\
  construct Demo.Robot_init VacuumGripper tt "" None None None None (Demo.blank VacuumGripper)
  = (Raise (CollaboratorError "cannot load URDF"), Demo.blank VacuumGripper).
Proof.
  split; [reflexivity |].
  apply (robot_failure_propagates Demo.Robot_init VacuumGripper tt "" None None None None
           (Demo.blank VacuumGripper)).
  reflexivity.
Defined.

Lemma get_finger_negative_wraps_witness :
  fingers Demo.two_fingers = Some [[10; 11]; [20; 21]] /\
  1 <= 2 <= Z.of_nat (length [[10; 11]; [20; 21]]) /\
  exists f, [[10; 11]; [20; 21]] !! (length [[10; 11]; [20; 21]] - Z.to_nat 2)%nat = Some f /\
            get_finger (PyIndex (- 2)) Demo.two_fingers = (Return (OneFinger f), Demo.two_fingers).
Proof.
  split; [reflexivity |]. split; [simpl; lia |].
  apply (get_finger_negative_wraps Demo.two_fingers [[10; 11]; [20; 21]] 2).
  - reflexivity.
  - simpl; lia.
Defined.

(** * Further properties of the accessors and the constructors *)


Section Accessors.
Context {RobotState : Type}.
Implicit Types (self : object RobotState) (fs : list finger) (a : finger_id).

Lemma get_finger_assigned_falsy self fs a :
  fingers self = Some fs -> truthy a = false ->
  get_finger a self = (Return (AllFingers fs), self).
Proof.
  intros Hfs Ha. unfold get_finger. rewrite Ha.
  unfold bind, getattr_fingers, ret. now rewrite Hfs.
Qed.

Lemma get_finger_unassigned self a :
  fingers self = None -> get_finger a self = (Raise AttributeError, self).
Proof.
  intros Hfs. unfold get_finger, subscript_fingers, bind, getattr_fingers.
  destruct a as [| i]; simpl; [now rewrite Hfs |].
  destruct (negb (i =? 0)); now rewrite Hfs.
Qed.




(** X5. [num_fingers] agrees with [get_finger()]: when [get_finger()]
    returns a list, [num_fingers] returns its length; when it raises,
    [num_fingers] raises the same exception. *)
Theorem num_fingers_is_len_get_finger self :
  (forall fs, result (get_finger PyNone) self = Return (AllFingers fs) ->
              result num_fingers self = Return (length fs)) /\
  (forall e, result (get_finger PyNone) self = Raise e ->
             result num_fingers self = Raise e).
Proof.
  unfold result. destruct (fingers self) as [fs0 |] eqn:Hfs.
  - rewrite (get_finger_assigned_falsy self fs0 PyNone), (num_fingers_assigned self fs0)
      by (assumption || reflexivity).
    simpl. split; [now intros fs [= <-] | discriminate].
  - rewrite get_finger_unassigned, num_fingers_unassigned by assumption.
    simpl. split; [discriminate | now intros e [= <-]].
Qed.

(** X6. On an instance whose [fingers] was never assigned (no
    constructor has completed), [num_fingers] and [get_finger] with any
    argument raise [AttributeError] and leave the instance as it was. *)
Theorem accessors_before_init self a :
  fingers self = None ->
  num_fingers self = (Raise AttributeError, self) /\
  get_finger a self = (Raise AttributeError, self).
Proof.
  intros Hfs. split.
  - now apply num_fingers_unassigned.
  - now apply get_finger_unassigned.
Qed.

(** X8. For [1 <= i < num_fingers], the negative index
    [i - num_fingers] and the index [i] give the same outcome. *)
Theorem get_finger_negative_positive_agree self fs i :
  fingers self = Some fs -> 1 <= i < Z.of_nat (length fs) ->
  get_finger (PyIndex (i - Z.of_nat (length fs))) self = get_finger (PyIndex i) self.
Proof.
  intros Hfs Hi.
  destruct (lookup_lt_is_Some_2 fs (Z.to_nat i)) as [f Hf]; [lia |].
  rewrite !(get_finger_assigned_nonzero self fs) by (assumption || lia).
  rewrite (list_getitem_nonneg fs i f) by (assumption || lia).
  rewrite (list_getitem_negative fs (i - Z.of_nat (length fs)) f); [reflexivity | lia | lia |].
  now replace (i - Z.of_nat (length fs) + Z.of_nat (length fs)) with i by lia.
Qed.

End Accessors.

Section Constructors.
Context {Simulator RobotState : Type}.
Variable Robot_init :
  Simulator -> string -> position -> orientation -> bool -> number -> M RobotState unit.

(** X7. A constructor of any of the four classes returns exactly when
    [Robot.__init__], run on the six resolved arguments in their order,
    returns; the instance is then the one [Robot.__init__] left, with
    [fingers] replaced by the empty list (whatever it held before). *)
Theorem construct_returns_iff (c : class) sim urdf p o f s
    (self self' : object RobotState) :
  construct Robot_init c sim urdf p o f s self = (Return tt, self') <->
  exists self1,
    Robot_init sim urdf (default default_position p) (default default_orientation o)
               (default default_fixed_base f) (default default_scale s) self
      = (Return tt, self1) /\
    self' = Object (class_of self1) (robot self1) (Some []).
Proof.
  rewrite construct_eq, Gripper_init_unfold.
  destruct (Robot_init _ _ _ _ _ _ self) as [[[] | e1] self1]; split.
  - intros [= <-]. now exists self1.
  - intros (self2 & [= <-] & ->). reflexivity.
  - discriminate.
  - intros (self2 & Hrun & _). discriminate.
Qed.

End Constructors.

(** ** Runs of the further properties on concrete instances *)

Lemma get_finger_positive_index_witness :
  fingers Demo.two_fingers = Some [[10; 11]; [20; 21]] /\
  1 <= 1 < Z.of_nat (length [[10; 11]; [20; 21]]) /\
  exists f, [[10; 11]; [20; 21]] !! Z.to_nat 1 = Some f /\
            get_finger (PyIndex 1) Demo.two_fingers = (Return (OneFinger f), Demo.two_fingers).
Proof.
  split; [reflexivity |]. split; [simpl; lia |].
  apply (get_finger_positive_index Demo.two_fingers [[10; 11]; [20; 21]] 1).
  - reflexivity.
  - simpl; lia.
Defined.

Lemma get_finger_nonzero_out_of_range_witness :
  fingers Demo.two_fingers = Some [[10; 11]; [20; 21]] /\
  5 <> 0 /\
  (5 < - Z.of_nat (length [[10; 11]; [20; 21]]) \/ Z.of_nat (length [[10; 11]; [20; 21]]) <= 5) /\
  get_finger (PyIndex 5) Demo.two_fingers = (Raise IndexError, Demo.two_fingers).
Proof.
  split; [reflexivity |]. split; [lia |]. split; [right; simpl; lia |].
  apply (get_finger_nonzero_out_of_range Demo.two_fingers [[10; 11]; [20; 21]] 5).
  - reflexivity.
  - lia.
  - right; simpl; lia.
Defined.



Lemma num_fingers_is_len_get_finger_witness :
  result (get_finger PyNone) Demo.two_fingers = Return (AllFingers [[10; 11]; [20; 21]]) /\
  result num_fingers Demo.two_fingers = Return 2%nat.
Proof.
  split; [reflexivity |].
  apply (proj1 (num_fingers_is_len_get_finger Demo.two_fingers) [[10; 11]; [20; 21]]).
  reflexivity.
Defined.

Lemma accessors_before_init_witness :
  fingers (Demo.blank AngularGripper) = None /\
  num_fingers (Demo.blank AngularGripper) = (Raise AttributeError, Demo.blank AngularGripper) /\
  get_finger (PyIndex 1) (Demo.blank AngularGripper)
  = (Raise AttributeError, Demo.blank AngularGripper).
Proof.
  split; [reflexivity |].
  apply (accessors_before_init (Demo.blank AngularGripper) (PyIndex 1)).
  reflexivity.
Defined.

Lemma construct_returns_iff_witness :
  Demo.Robot_init tt "hand.urdf" default_position (PyInt 0, PyInt 0, PyInt 1, PyInt 0)
                  true default_scale Demo.two_fingers
  = (Return tt,
     Object ParallelGripper
            (Some ("hand.urdf", default_position, (PyInt 0, PyInt 0, PyInt 1, PyInt 0),
                   true, default_scale))
            (Some [[10; 11]; [20; 21]])) /\
  construct Demo.Robot_init ParallelGripper tt "hand.urdf" None
            (Some (PyInt 0, PyInt 0, PyInt 1, PyInt 0)) (Some true) None Demo.two_fingers
  = (Return tt,
     Object ParallelGripper
            (Some ("hand.urdf", default_position, (PyInt 0, PyInt 0, PyInt 1, PyInt 0),
                   true, default_scale))
            (Some [])).
Proof.
  split; [reflexivity |].
  apply (construct_returns_iff Demo.Robot_init ParallelGripper tt "hand.urdf" None
           (Some (PyInt 0, PyInt 0, PyInt 1, PyInt 0)) (Some true) None Demo.two_fingers).
  eexists. split; reflexivity.
Defined.

Lemma get_finger_negative_positive_agree_witness :
  fingers Demo.two_fingers = Some [[10; 11]; [20; 21]] /\
  1 <= 1 < Z.of_nat (length [[10; 11]; [20; 21]]) /\
  get_finger (PyIndex (1 - Z.of_nat (length [[10; 11]; [20; 21]]))) Demo.two_fingers
  = get_finger (PyIndex 1) Demo.two_fingers.
Proof.
  split; [reflexivity |]. split; [simpl; lia |].
  apply (get_finger_negative_positive_agree Demo.two_fingers [[10; 11]; [20; 21]] 1).
  - reflexivity.
  - simpl; lia.
Defined.
